(** * Index handles of the toolchain: [toolchain/base/index_base.h]

    A shallow embedding of [Carbon::IndexBase], [Carbon::ComparableIndexBase],
    the comparison operator templates and [Carbon::IndexMapInfo], followed by
    the properties the specification states about them.

    Conventions.
    - [int32_t] is a 32-bit machine word; its numeric value is the two's
      complement reading [word.signed].  [int] is taken to be 32 bits wide as
      well, so that the constructor parameter [int index] is stored unchanged.
    - [llvm::raw_ostream] is the text written to the stream so far; writing
      appends to it.
    - A template parameter constrained by [std::is_base_of_v] is a type class.
    - [llvm::DenseMapInfo<K>] is a record of the four static members a
      [DenseMap] asks of a key type. *)

From Stdlib Require Import ZArith Lia Bool String Ascii.
From Stdlib Require Import DecimalString DecimalZ.
From coqutil Require Import Word.Interface Word.Properties Word.Naive.

Local Open Scope Z_scope.

(* ===================================================================== *)
(** ** Machine integers *)

(** [int32_t], with the built-in comparison operators of the language: both
    operands are compared by their numeric value. *)
Module Int32.

Definition t : Type := Naive.word32.

Definition min_value : Z := - 2 ^ 31.
Definition max_value : Z := 2 ^ 31 - 1.

Definition of_Z (z : Z) : t := word.of_Z z.
Definition to_Z (x : t) : Z := word.signed x.

Definition eq (x y : t) : bool := Z.eqb (to_Z x) (to_Z y).
Definition ne (x y : t) : bool := negb (Z.eqb (to_Z x) (to_Z y)).
Definition lt (x y : t) : bool := Z.ltb (to_Z x) (to_Z y).
Definition le (x y : t) : bool := Z.leb (to_Z x) (to_Z y).
Definition gt (x y : t) : bool := Z.gtb (to_Z x) (to_Z y).
Definition ge (x y : t) : bool := Z.geb (to_Z x) (to_Z y).

End Int32.

Definition int32_t : Type := Int32.t.

(** [unsigned], the result type of [getHashValue]. *)
Definition unsigned : Type := Naive.word32.

(* ===================================================================== *)
(** ** Output streams *)

(** The text an [llvm::raw_ostream] has received. *)
Definition raw_ostream : Type := string.

(** [output << "literal"]. *)
Definition write_cstr (output : raw_ostream) (s : string) : raw_ostream :=
  (output ++ s)%string.

(** The decimal text of a signed number: an optional minus sign followed by
    the digits, without leading zeros; zero is the single digit [0]. *)
Definition decimal (z : Z) : string :=
  NilZero.string_of_int (Z.to_int z).

(** [output << n] for a 32-bit signed [n]. *)
Definition write_int32 (output : raw_ostream) (n : int32_t) : raw_ostream :=
  (output ++ decimal (Int32.to_Z n))%string.

(* ===================================================================== *)
(** ** [IndexBase] and [ComparableIndexBase] *)

Module IndexBase.

(** [struct IndexBase { int32_t index; }] *)
Record t : Type := Build { index : int32_t }.

(** [static constexpr int32_t InvalidIndex = -1;] *)
Definition InvalidIndex : int32_t := Int32.of_Z (-1).

(** [constexpr explicit IndexBase(int index) : index(index) {}] *)
Definition make (index : int32_t) : t := Build index.

(** [auto is_valid() const -> bool { return index != InvalidIndex; }] *)
Definition is_valid (self : t) : bool :=
  Int32.ne (index self) InvalidIndex.

(** [auto Print(llvm::raw_ostream& output) const -> void] *)
Definition Print (self : t) (output : raw_ostream) : raw_ostream :=
  if is_valid self
  then write_int32 output (index self)
  else write_cstr output "<invalid>".

End IndexBase.

Module ComparableIndexBase.

(** [struct ComparableIndexBase : public IndexBase] adds no member. *)
Record t : Type := Build { base : IndexBase.t }.

(** [using IndexBase::IndexBase;] *)
Definition make (index : int32_t) : t := Build (IndexBase.make index).

End ComparableIndexBase.

(* ===================================================================== *)
(** ** Types derived from the two bases *)

(** [std::is_base_of_v<IndexBase, IndexType>]: the type has an [IndexBase]
    subobject.  The handle types of the toolchain declare no constructor of
    their own and inherit the one of [IndexBase], which is [construct] here;
    [construct_base] says that it is the inherited one. *)
Class IsIndexBase (IndexType : Type) : Type := {
  to_base : IndexType -> IndexBase.t;
  construct : int32_t -> IndexType;
  construct_base : forall i, to_base (construct i) = IndexBase.make i
}.

(** [std::is_base_of_v<ComparableIndexBase, IndexType>]. *)
Class IsComparableIndexBase (IndexType : Type) `{IsIndexBase IndexType}
  : Type := {
  to_comparable : IndexType -> ComparableIndexBase.t;
  to_comparable_base :
    forall x, ComparableIndexBase.base (to_comparable x) = to_base x
}.

#[export] Instance IndexBase_IsIndexBase : IsIndexBase IndexBase.t := {|
  to_base := fun x => x;
  construct := IndexBase.make;
  construct_base := fun _ => eq_refl
|}.

#[export] Instance ComparableIndexBase_IsIndexBase
  : IsIndexBase ComparableIndexBase.t := {|
  to_base := ComparableIndexBase.base;
  construct := ComparableIndexBase.make;
  construct_base := fun _ => eq_refl
|}.

#[export] Instance ComparableIndexBase_IsComparableIndexBase
  : IsComparableIndexBase ComparableIndexBase.t := {|
  to_comparable := fun x => x;
  to_comparable_base := fun _ => eq_refl
|}.

(** [x.index], [x.is_valid()] and [x.Print(output)] on a derived type are the
    members of its base subobject. *)
Definition index_of {IndexType} `{IsIndexBase IndexType} (x : IndexType)
  : int32_t := IndexBase.index (to_base x).

Definition is_valid {IndexType} `{IsIndexBase IndexType} (x : IndexType)
  : bool := IndexBase.is_valid (to_base x).

Definition Print {IndexType} `{IsIndexBase IndexType} (x : IndexType)
  (output : raw_ostream) : raw_ostream := IndexBase.Print (to_base x) output.

(** The numeric value of the index a handle stores. *)
Definition value {IndexType} `{IsIndexBase IndexType} (a : IndexType) : Z :=
  Int32.to_Z (index_of a).

(* ===================================================================== *)
(** ** Comparison operators *)

(** Equality comparison for both [IndexBase] and [ComparableIndexBase]:
    [operator==] returns [lhs.index == rhs.index]. *)
Definition op_eq {IndexType} `{IsIndexBase IndexType}
  (lhs rhs : IndexType) : bool :=
  Int32.eq (index_of lhs) (index_of rhs).

(** [operator!=] returns [lhs.index != rhs.index]. *)
Definition op_ne {IndexType} `{IsIndexBase IndexType}
  (lhs rhs : IndexType) : bool :=
  Int32.ne (index_of lhs) (index_of rhs).

(** The [<] and [>] comparisons for only [ComparableIndexBase]:
    [operator<] returns [lhs.index < rhs.index]. *)
Definition op_lt {IndexType} `{IsComparableIndexBase IndexType}
  (lhs rhs : IndexType) : bool :=
  Int32.lt (index_of lhs) (index_of rhs).

(** [operator<=] returns [lhs.index <= rhs.index]. *)
Definition op_le {IndexType} `{IsComparableIndexBase IndexType}
  (lhs rhs : IndexType) : bool :=
  Int32.le (index_of lhs) (index_of rhs).

(** [operator>] returns [lhs.index > rhs.index]. *)
Definition op_gt {IndexType} `{IsComparableIndexBase IndexType}
  (lhs rhs : IndexType) : bool :=
  Int32.gt (index_of lhs) (index_of rhs).

(** [operator>=] returns [lhs.index >= rhs.index]. *)
Definition op_ge {IndexType} `{IsComparableIndexBase IndexType}
  (lhs rhs : IndexType) : bool :=
  Int32.ge (index_of lhs) (index_of rhs).

(* ===================================================================== *)
(** ** [DenseMapInfo] and [IndexMapInfo] *)

(** The static members a [DenseMap] or [DenseSet] asks of its key type. *)
Record DenseMapInfo (Key : Type) : Type := {
  getEmptyKey : Key;
  getTombstoneKey : Key;
  getHashValue : Key -> unsigned;
  isEqual : Key -> Key -> bool
}.

Arguments getEmptyKey {Key} _.
Arguments getTombstoneKey {Key} _.
Arguments getHashValue {Key} _ _.
Arguments isEqual {Key} _ _ _.

(** [template <typename Index> struct IndexMapInfo].  The header
    [llvm/ADT/DenseMapInfo.h] belongs to another project, so the
    specialisation [llvm::DenseMapInfo<int32_t>] that the members call is the
    parameter [Int32Info]. *)
Definition IndexMapInfo (Index : Type) `{IsIndexBase Index}
  (Int32Info : DenseMapInfo int32_t) : DenseMapInfo Index := {|
  getEmptyKey := construct (getEmptyKey Int32Info);
  getTombstoneKey := construct (getTombstoneKey Int32Info);
  getHashValue := fun val => getHashValue Int32Info (index_of val);
  isEqual := fun lhs rhs => op_eq lhs rhs
|}.

(** Modelled from the spec: [llvm::DenseMapInfo<int32_t>] is declared in
    [llvm/ADT/DenseMapInfo.h], which is not part of this repository.  The
    specification describes its two sentinels as map-internal values "near
    the extremes of the representable range", the empty-slot one "distinct
    from the domain sentinel -1" and the two distinct from each other, and
    its hash as "the standard integer hash function".  This instance takes
    the largest [int32_t] for the empty key, the smallest for the tombstone
    key, and the multiplicative hash [(unsigned)(Val * 37U)]. *)
Definition llvm_DenseMapInfo_int32 : DenseMapInfo int32_t := {|
  getEmptyKey := Int32.of_Z Int32.max_value;
  getTombstoneKey := Int32.of_Z Int32.min_value;
  getHashValue := fun Val => word.mul Val (word.of_Z 37);
  isEqual := fun LHS RHS => Int32.eq LHS RHS
|}.

(** Modelled from the spec: what the specification says of the sentinels of
    the integer hashing utility, which is not part of this repository.  The
    empty-slot and the deleted-slot sentinel differ. *)
Definition sentinels_distinct (Int32Info : DenseMapInfo int32_t) : Prop :=
  getEmptyKey Int32Info <> getTombstoneKey Int32Info.

(** Modelled from the spec: the empty-slot sentinel of the integer hashing
    utility is "distinct from the domain sentinel -1". *)
Definition empty_not_invalid (Int32Info : DenseMapInfo int32_t) : Prop :=
  getEmptyKey Int32Info <> IndexBase.InvalidIndex.

(** Modelled from the spec: the deleted-slot sentinel of the integer hashing
    utility is distinct "from all values ordinary handle construction is
    expected to produce", the invalid index [-1] among them. *)
Definition tombstone_not_invalid (Int32Info : DenseMapInfo int32_t) : Prop :=
  getTombstoneKey Int32Info <> IndexBase.InvalidIndex.

(* ===================================================================== *)
(** ** Vocabulary of the statements *)

(** Exactly one of the three booleans is [true]. *)
Definition exactly_one (x y z : bool) : Prop :=
  (x = true /\ y = false /\ z = false) \/
  (x = false /\ y = true /\ z = false) \/
  (x = false /\ y = false /\ z = true).

(** Reading a decimal text back: the number it denotes, if it is one. *)
Definition parse_decimal (s : string) : option Z :=
  option_map Z.of_int (NilZero.int_of_string s).

(* ===================================================================== *)
(** ** Facts about [int32_t] *)

Lemma Int32_to_Z_range (x : int32_t) :
  Int32.min_value <= Int32.to_Z x <= Int32.max_value.
Proof.
  unfold Int32.to_Z, Int32.min_value, Int32.max_value.
  pose proof (word.signed_range x) as Hr.
  change (2 ^ (32 - 1)) with (2 ^ 31) in Hr. lia.
Qed.

Lemma Int32_to_Z_inj (x y : int32_t) :
  Int32.to_Z x = Int32.to_Z y -> x = y.
Proof. unfold Int32.to_Z. apply word.signed_inj. Qed.

Lemma Int32_to_Z_of_Z (z : Z) :
  Int32.min_value <= z <= Int32.max_value -> Int32.to_Z (Int32.of_Z z) = z.
Proof.
  unfold Int32.to_Z, Int32.of_Z, Int32.min_value, Int32.max_value.
  intros Hz. rewrite word.signed_of_Z. apply word.swrap_inrange.
  change (2 ^ (32 - 1)) with (2 ^ 31). lia.
Qed.

Lemma Int32_of_Z_to_Z (x : int32_t) : Int32.of_Z (Int32.to_Z x) = x.
Proof. unfold Int32.of_Z, Int32.to_Z. apply word.of_Z_signed. Qed.

Lemma Int32_eq_true (x y : int32_t) : Int32.eq x y = true <-> x = y.
Proof.
  unfold Int32.eq. rewrite Z.eqb_eq. split.
  - apply Int32_to_Z_inj.
  - intros ->. reflexivity.
Qed.

Lemma Int32_ne_true (x y : int32_t) : Int32.ne x y = true <-> x <> y.
Proof.
  unfold Int32.ne. rewrite negb_true_iff, Z.eqb_neq. split.
  - intros Hne ->. apply Hne. reflexivity.
  - intros Hne Heq. apply Hne, Int32_to_Z_inj, Heq.
Qed.

Lemma Int32_ne_negb_eq (x y : int32_t) : Int32.ne x y = negb (Int32.eq x y).
Proof. reflexivity. Qed.

Lemma Int32_to_Z_InvalidIndex : Int32.to_Z IndexBase.InvalidIndex = -1.
Proof. reflexivity. Qed.

Lemma index_of_construct {IndexType} `{IsIndexBase IndexType} (i : int32_t) :
  index_of (construct i) = i.
Proof. unfold index_of. rewrite construct_base. reflexivity. Qed.

(** Reading a comparison of two signed numbers as a proposition. *)
Ltac bool_to_Z :=
  unfold Int32.eq, Int32.ne, Int32.lt, Int32.le, Int32.gt, Int32.ge in *;
  rewrite ?negb_true_iff, ?negb_false_iff in *;
  rewrite ?Z.eqb_eq, ?Z.eqb_neq, ?Z.ltb_lt, ?Z.ltb_ge,
    ?Z.leb_le, ?Z.leb_gt, ?Z.gtb_ltb, ?Z.geb_leb in *;
  rewrite ?Z.ltb_lt, ?Z.ltb_ge, ?Z.leb_le, ?Z.leb_gt in *.

(* ===================================================================== *)
(** ** Validity *)

(** C1.  A handle constructed from a 32-bit integer [v] is valid exactly when
    the value of [v] is not [-1]: the handle made from [-1] is not valid, and
    the handle made from any other value is. *)
Theorem is_valid_iff_not_sentinel :
  forall (IndexType : Type) (D : IsIndexBase IndexType) (v : int32_t),
    (is_valid (construct v : IndexType) = true <-> Int32.to_Z v <> -1) /\
    (is_valid (construct v : IndexType) = false <-> Int32.to_Z v = -1) /\
    is_valid (construct (Int32.of_Z (-1)) : IndexType) = false.
Proof.
  intros IndexType D v. unfold is_valid, IndexBase.is_valid.
  rewrite !construct_base. cbn [IndexBase.make IndexBase.index].
  unfold Int32.ne. rewrite Int32_to_Z_InvalidIndex.
  rewrite negb_true_iff, negb_false_iff, Z.eqb_neq, Z.eqb_eq.
  repeat split; auto.
Qed.

(** The same, for handles named by the number they are made from. *)
Lemma is_valid_of_Z {IndexType} `{IsIndexBase IndexType} (z : Z) :
  Int32.min_value <= z <= Int32.max_value ->
  is_valid (construct (Int32.of_Z z) : IndexType) = negb (z =? -1).
Proof.
  intros Hz. unfold is_valid, IndexBase.is_valid.
  rewrite construct_base. cbn [IndexBase.make IndexBase.index].
  unfold Int32.ne. rewrite Int32_to_Z_InvalidIndex, Int32_to_Z_of_Z by exact Hz.
  reflexivity.
Qed.

(* ===================================================================== *)
(** ** Equality *)

Lemma op_eq_true {IndexType} `{IsIndexBase IndexType} (a b : IndexType) :
  op_eq a b = true <-> index_of a = index_of b.
Proof. unfold op_eq. apply Int32_eq_true. Qed.

Lemma op_ne_true {IndexType} `{IsIndexBase IndexType} (a b : IndexType) :
  op_ne a b = true <-> index_of a <> index_of b.
Proof. unfold op_ne. apply Int32_ne_true. Qed.

Lemma op_ne_negb_op_eq {IndexType} `{IsIndexBase IndexType}
  (a b : IndexType) : op_ne a b = negb (op_eq a b).
Proof. reflexivity. Qed.

(** C2.  Two handles of one type are [==] exactly when their indices are the
    same and [!=] exactly when their indices differ; so every handle equals
    itself, and handles made from different integers are unequal. *)
Theorem equality_compares_index :
  forall (IndexType : Type) (D : IsIndexBase IndexType) (a b : IndexType),
    (op_eq a b = true <-> index_of a = index_of b) /\
    (op_ne a b = true <-> index_of a <> index_of b) /\
    op_eq a a = true /\
    (forall v w : int32_t,
       op_eq (construct v : IndexType) (construct v) = true /\
       (v <> w -> op_ne (construct v : IndexType) (construct w) = true)).
Proof.
  intros IndexType D a b. split; [apply op_eq_true|].
  split; [apply op_ne_true|]. split; [apply op_eq_true; reflexivity|].
  intros v w. split.
  - apply op_eq_true. reflexivity.
  - intros Hvw. apply op_ne_true. rewrite !index_of_construct. exact Hvw.
Qed.

(* ===================================================================== *)
(** ** Ordering *)

Section Ordering.

Context {IndexType : Type} {D : IsIndexBase IndexType}
  {C : IsComparableIndexBase IndexType}.

Lemma op_lt_true (a b : IndexType) : op_lt a b = true <-> value a < value b.
Proof. unfold op_lt, value. bool_to_Z. reflexivity. Qed.

Lemma op_le_true (a b : IndexType) : op_le a b = true <-> value a <= value b.
Proof. unfold op_le, value. bool_to_Z. reflexivity. Qed.

Lemma op_gt_true (a b : IndexType) : op_gt a b = true <-> value a > value b.
Proof. unfold op_gt, value. bool_to_Z. lia. Qed.

Lemma op_ge_true (a b : IndexType) : op_ge a b = true <-> value a >= value b.
Proof. unfold op_ge, value. bool_to_Z. lia. Qed.

Lemma op_eq_value (a b : IndexType) : op_eq a b = true <-> value a = value b.
Proof. unfold op_eq, value. bool_to_Z. reflexivity. Qed.

Lemma op_lt_irrefl (a : IndexType) : op_lt a a = false.
Proof. unfold op_lt, Int32.lt. apply Z.ltb_irrefl. Qed.

Lemma op_lt_trans (a b c : IndexType) :
  op_lt a b = true -> op_lt b c = true -> op_lt a c = true.
Proof. rewrite !op_lt_true. lia. Qed.

Lemma op_lt_asym (a b : IndexType) : op_lt a b = true -> op_lt b a = false.
Proof.
  intros Hab. destruct (op_lt b a) eqn:Hba; [|reflexivity].
  apply op_lt_true in Hab. apply op_lt_true in Hba. lia.
Qed.

Lemma trichotomy (a b : IndexType) :
  exactly_one (op_lt a b) (op_eq a b) (op_gt a b).
Proof.
  unfold exactly_one.
  destruct (op_lt a b) eqn:Hlt, (op_eq a b) eqn:Heq, (op_gt a b) eqn:Hgt;
    try (left; repeat split; reflexivity);
    try (right; left; repeat split; reflexivity);
    try (right; right; repeat split; reflexivity);
    exfalso; unfold op_lt, op_eq, op_gt in *; bool_to_Z; lia.
Qed.

End Ordering.

(** C3.  On a type derived from [ComparableIndexBase] the four ordering
    operators are the numeric order of the stored indices, the invalid index
    counting as the number [-1] like any other; the order is a strict total
    order: [<] is irreflexive and transitive, and of [a < b], [a == b] and
    [a > b] exactly one holds. *)
Theorem ordering_is_numeric_strict_total :
  forall (IndexType : Type) (D : IsIndexBase IndexType)
         (C : IsComparableIndexBase IndexType) (a b c : IndexType),
    (op_lt a b = true <-> Int32.to_Z (index_of a) < Int32.to_Z (index_of b)) /\
    (op_le a b = true <-> Int32.to_Z (index_of a) <= Int32.to_Z (index_of b)) /\
    (op_gt a b = true <-> Int32.to_Z (index_of a) > Int32.to_Z (index_of b)) /\
    (op_ge a b = true <-> Int32.to_Z (index_of a) >= Int32.to_Z (index_of b)) /\
    (index_of a = IndexBase.InvalidIndex ->
       (op_lt a b = true <-> -1 < Int32.to_Z (index_of b)) /\
       (op_gt a b = true <-> -1 > Int32.to_Z (index_of b))) /\
    op_lt a a = false /\
    (op_lt a b = true -> op_lt b c = true -> op_lt a c = true) /\
    exactly_one (op_lt a b) (op_eq a b) (op_gt a b).
Proof.
  intros IndexType D C a b c.
  split; [apply op_lt_true|]. split; [apply op_le_true|].
  split; [apply op_gt_true|]. split; [apply op_ge_true|].
  split.
  { intros Ha. rewrite op_lt_true, op_gt_true. unfold value. rewrite Ha.
    rewrite Int32_to_Z_InvalidIndex. split; reflexivity. }
  split; [apply op_lt_irrefl|]. split; [apply op_lt_trans|].
  apply trichotomy.
Qed.

(** C10.  The four ordering operators, each written out on its own, agree
    with one another: [a <= b] is [a < b] or [a == b], [a > b] is [b < a],
    and [a >= b] is [b <= a]. *)
Theorem ordering_operators_consistent :
  forall (IndexType : Type) (D : IsIndexBase IndexType)
         (C : IsComparableIndexBase IndexType) (a b : IndexType),
    (op_le a b = true <-> op_lt a b = true \/ op_eq a b = true) /\
    (op_gt a b = true <-> op_lt b a = true) /\
    (op_ge a b = true <-> op_le b a = true) /\
    op_le a b = op_lt a b || op_eq a b /\
    op_gt a b = op_lt b a /\
    op_ge a b = op_le b a.
Proof.
  intros IndexType D C a b.
  assert (Hle : op_le a b = op_lt a b || op_eq a b).
  { unfold op_le, op_lt, op_eq, Int32.le, Int32.lt, Int32.eq.
    set (x := Int32.to_Z (index_of a)). set (y := Int32.to_Z (index_of b)).
    destruct (Z.leb_spec x y), (Z.ltb_spec x y), (Z.eqb_spec x y);
      try reflexivity; lia. }
  assert (Hgt : op_gt a b = op_lt b a).
  { unfold op_gt, op_lt, Int32.gt, Int32.lt. apply Z.gtb_ltb. }
  assert (Hge : op_ge a b = op_le b a).
  { unfold op_ge, op_le, Int32.ge, Int32.le. apply Z.geb_leb. }
  rewrite Hle at 1. rewrite Hgt at 1. rewrite Hge at 1.
  rewrite orb_true_iff. repeat split; auto.
Qed.

(* ===================================================================== *)
(** ** Printing *)

Lemma parse_decimal_decimal (z : Z) : parse_decimal (decimal z) = Some z.
Proof.
  unfold parse_decimal, decimal.
  rewrite NilZero.isi.
  - cbn [option_map]. rewrite DecimalZ.of_to. reflexivity.
  - destruct z; cbn; try discriminate.
    intros [= Hp]. revert Hp. apply DecimalPos.Unsigned.to_uint_nonnil.
  - destruct z; cbn; try discriminate.
    intros [= Hp]. revert Hp. apply DecimalPos.Unsigned.to_uint_nonnil.
Qed.

Lemma decimal_inj (x y : Z) : decimal x = decimal y -> x = y.
Proof.
  intros Hxy. apply (f_equal parse_decimal) in Hxy.
  rewrite !parse_decimal_decimal in Hxy. congruence.
Qed.

Lemma decimal_not_invalid (z : Z) : decimal z <> "<invalid>"%string.
Proof.
  intros Hz. apply (f_equal parse_decimal) in Hz.
  rewrite parse_decimal_decimal in Hz. discriminate Hz.
Qed.

Lemma Print_valid {IndexType} `{IsIndexBase IndexType}
  (x : IndexType) (output : raw_ostream) :
  is_valid x = true ->
  Print x output = (output ++ decimal (value x))%string.
Proof.
  intros Hv. unfold Print, IndexBase.Print.
  fold (is_valid x). rewrite Hv. reflexivity.
Qed.

Lemma Print_invalid {IndexType} `{IsIndexBase IndexType}
  (x : IndexType) (output : raw_ostream) :
  is_valid x = false ->
  Print x output = (output ++ "<invalid>")%string.
Proof.
  intros Hv. unfold Print, IndexBase.Print.
  fold (is_valid x). rewrite Hv. reflexivity.
Qed.

(** C6.  Printing a valid handle appends the decimal text of its index to
    the stream, a text that reads back as that index; printing a handle that
    is not valid appends the text [<invalid>].  The handle made from [-1]
    prints as [<invalid>] and the one made from [42] as [42]. *)
Theorem Print_decimal_or_invalid :
  forall (IndexType : Type) (D : IsIndexBase IndexType)
         (x : IndexType) (output : raw_ostream),
    (is_valid x = true ->
       Print x output = (output ++ decimal (Int32.to_Z (index_of x)))%string /\
       parse_decimal (Print x EmptyString) = Some (Int32.to_Z (index_of x))) /\
    (is_valid x = false ->
       Print x output = (output ++ "<invalid>")%string) /\
    Print (construct (Int32.of_Z (-1)) : IndexType) EmptyString = "<invalid>"%string /\
    Print (construct (Int32.of_Z 42) : IndexType) EmptyString = "42"%string.
Proof.
  intros IndexType D x output. split; [|split; [|split]].
  - intros Hv. rewrite !Print_valid by exact Hv. split; [reflexivity|].
    apply parse_decimal_decimal.
  - apply Print_invalid.
  - unfold Print. rewrite construct_base. reflexivity.
  - unfold Print. rewrite construct_base. reflexivity.
Qed.

(* ===================================================================== *)
(** ** Keys of hash maps *)

Section MapInfo.

Context {Index : Type} {D : IsIndexBase Index}.
Variable Int32Info : DenseMapInfo int32_t.

Lemma index_of_getEmptyKey :
  index_of (getEmptyKey (IndexMapInfo Index Int32Info))
  = getEmptyKey Int32Info.
Proof. cbn [IndexMapInfo getEmptyKey]. apply index_of_construct. Qed.

Lemma index_of_getTombstoneKey :
  index_of (getTombstoneKey (IndexMapInfo Index Int32Info))
  = getTombstoneKey Int32Info.
Proof. cbn [IndexMapInfo getTombstoneKey]. apply index_of_construct. Qed.

Lemma is_valid_true (x : Index) :
  is_valid x = true <-> index_of x <> IndexBase.InvalidIndex.
Proof. unfold is_valid, IndexBase.is_valid. apply Int32_ne_true. Qed.

Lemma getHashValue_index (a : Index) :
  getHashValue (IndexMapInfo Index Int32Info) a
  = getHashValue Int32Info (index_of a).
Proof. reflexivity. Qed.

End MapInfo.

(** C4.  Given an integer hashing utility whose empty-slot and deleted-slot
    sentinels differ and whose empty-slot sentinel is not [-1], the empty key
    and the tombstone key of [IndexMapInfo] are never equal, whichever way
    they are compared, and the index of the empty key is not the invalid
    index [-1]. *)
Theorem empty_and_tombstone_keys_distinct :
  forall (Index : Type) (D : IsIndexBase Index)
         (Int32Info : DenseMapInfo int32_t),
    sentinels_distinct Int32Info ->
    empty_not_invalid Int32Info ->
    let Info := IndexMapInfo Index Int32Info in
    op_eq (getEmptyKey Info) (getTombstoneKey Info) = false /\
    op_ne (getEmptyKey Info) (getTombstoneKey Info) = true /\
    isEqual Info (getEmptyKey Info) (getTombstoneKey Info) = false /\
    getEmptyKey Info <> getTombstoneKey Info /\
    index_of (getEmptyKey Info) <> IndexBase.InvalidIndex /\
    Int32.to_Z (index_of (getEmptyKey Info)) <> -1.
Proof.
  intros Index D Int32Info Hdistinct Hempty Info.
  assert (Hne : op_ne (getEmptyKey Info) (getTombstoneKey Info) = true).
  { apply op_ne_true. subst Info.
    rewrite index_of_getEmptyKey, index_of_getTombstoneKey.
    exact Hdistinct. }
  assert (Heq : op_eq (getEmptyKey Info) (getTombstoneKey Info) = false).
  { rewrite op_ne_negb_op_eq in Hne. apply negb_true_iff. exact Hne. }
  assert (Hidx : index_of (getEmptyKey Info) <> IndexBase.InvalidIndex).
  { subst Info. rewrite index_of_getEmptyKey. exact Hempty. }
  repeat split.
  - exact Heq.
  - exact Hne.
  - exact Heq.
  - intros Hsame. apply op_ne_true in Hne. apply Hne.
    rewrite Hsame. reflexivity.
  - exact Hidx.
  - rewrite <- Int32_to_Z_InvalidIndex. intros Hz. apply Hidx.
    apply Int32_to_Z_inj. exact Hz.
Qed.

(** C5.  The hash of a handle is the integer hash of its index, so handles
    that compare equal have the same hash. *)
Theorem hash_is_integer_hash_of_index :
  forall (Index : Type) (D : IsIndexBase Index)
         (Int32Info : DenseMapInfo int32_t) (a b : Index),
    getHashValue (IndexMapInfo Index Int32Info) a
      = getHashValue Int32Info (index_of a) /\
    (op_eq a b = true ->
       getHashValue (IndexMapInfo Index Int32Info) a
         = getHashValue (IndexMapInfo Index Int32Info) b) /\
    (index_of a = index_of b ->
       getHashValue (IndexMapInfo Index Int32Info) a
         = getHashValue (IndexMapInfo Index Int32Info) b).
Proof.
  intros Index D Int32Info a b. split; [reflexivity|].
  assert (Hidx : index_of a = index_of b ->
    getHashValue (IndexMapInfo Index Int32Info) a
      = getHashValue (IndexMapInfo Index Int32Info) b).
  { intros Hab. rewrite !getHashValue_index, Hab. reflexivity. }
  split; [|exact Hidx].
  intros Hab. apply Hidx, op_eq_true, Hab.
Qed.

(** C7.  [isEqual] of [IndexMapInfo] returns what [==] returns. *)
Theorem isEqual_is_op_eq :
  forall (Index : Type) (D : IsIndexBase Index)
         (Int32Info : DenseMapInfo int32_t) (a b : Index),
    isEqual (IndexMapInfo Index Int32Info) a b = op_eq a b.
Proof. intros Index D Int32Info a b. reflexivity. Qed.

(** C8.  Every comparison and the hash are functions of the index values
    alone: each of them is some total function applied to the indices of its
    operands, whatever else the handle type carries and whether or not the
    indices are the invalid index; comparing the invalid handle with itself
    or with another handle, and hashing it, gives a result like any other. *)
Theorem comparisons_and_hash_are_functions_of_index :
  forall (Index : Type) (D : IsIndexBase Index)
         (Int32Info : DenseMapInfo int32_t),
    (exists f : int32_t -> int32_t -> bool,
       forall a b : Index, op_eq a b = f (index_of a) (index_of b)) /\
    (exists f : int32_t -> int32_t -> bool,
       forall a b : Index, op_ne a b = f (index_of a) (index_of b)) /\
    (forall C : IsComparableIndexBase Index,
       (exists f : int32_t -> int32_t -> bool,
          forall a b : Index, op_lt a b = f (index_of a) (index_of b)) /\
       (exists f : int32_t -> int32_t -> bool,
          forall a b : Index, op_le a b = f (index_of a) (index_of b)) /\
       (exists f : int32_t -> int32_t -> bool,
          forall a b : Index, op_gt a b = f (index_of a) (index_of b)) /\
       (exists f : int32_t -> int32_t -> bool,
          forall a b : Index, op_ge a b = f (index_of a) (index_of b))) /\
    (exists h : int32_t -> unsigned,
       forall a : Index,
         getHashValue (IndexMapInfo Index Int32Info) a = h (index_of a)) /\
    (exists f : int32_t -> int32_t -> bool,
       forall a b : Index,
         isEqual (IndexMapInfo Index Int32Info) a b
           = f (index_of a) (index_of b)) /\
    (let invalid : Index := construct IndexBase.InvalidIndex in
     op_eq invalid invalid = true /\
     op_ne invalid invalid = false /\
     isEqual (IndexMapInfo Index Int32Info) invalid invalid = true /\
     getHashValue (IndexMapInfo Index Int32Info) invalid
       = getHashValue Int32Info IndexBase.InvalidIndex /\
     forall C : IsComparableIndexBase Index,
       op_lt invalid invalid = false /\ op_le invalid invalid = true /\
       op_gt invalid invalid = false /\ op_ge invalid invalid = true).
Proof.
  intros Index D Int32Info.
  split; [exists Int32.eq; reflexivity|].
  split; [exists Int32.ne; reflexivity|].
  split.
  { intros C. split; [exists Int32.lt; reflexivity|].
    split; [exists Int32.le; reflexivity|].
    split; [exists Int32.gt; reflexivity|].
    exists Int32.ge; reflexivity. }
  split; [exists (getHashValue Int32Info); reflexivity|].
  split; [exists Int32.eq; reflexivity|].
  intros invalid.
  assert (Hidx : index_of invalid = IndexBase.InvalidIndex)
    by apply index_of_construct.
  cbn [IndexMapInfo isEqual getHashValue].
  unfold op_eq, op_ne, op_lt, op_le, op_gt, op_ge. rewrite Hidx.
  repeat split; reflexivity.
Qed.

(** C9.  Given an integer hashing utility whose two sentinels both differ
    from [-1], the empty key and the tombstone key of [IndexMapInfo] are both
    valid handles as far as [is_valid] can tell. *)
Theorem empty_and_tombstone_keys_are_valid :
  forall (Index : Type) (D : IsIndexBase Index)
         (Int32Info : DenseMapInfo int32_t),
    empty_not_invalid Int32Info ->
    tombstone_not_invalid Int32Info ->
    is_valid (getEmptyKey (IndexMapInfo Index Int32Info)) = true /\
    is_valid (getTombstoneKey (IndexMapInfo Index Int32Info)) = true.
Proof.
  intros Index D Int32Info Hempty Htomb. split; apply is_valid_true.
  - rewrite index_of_getEmptyKey. exact Hempty.
  - rewrite index_of_getTombstoneKey. exact Htomb.
Qed.

(* ===================================================================== *)
(** ** The statements at concrete handles *)

Lemma llvm_sentinels_distinct : sentinels_distinct llvm_DenseMapInfo_int32.
Proof.
  unfold sentinels_distinct. intros Hsame.
  apply (f_equal Int32.to_Z) in Hsame. vm_compute in Hsame.
  discriminate Hsame.
Defined.

Lemma llvm_empty_not_invalid : empty_not_invalid llvm_DenseMapInfo_int32.
Proof.
  unfold empty_not_invalid. intros Hsame.
  apply (f_equal Int32.to_Z) in Hsame. vm_compute in Hsame.
  discriminate Hsame.
Defined.

Lemma llvm_tombstone_not_invalid :
  tombstone_not_invalid llvm_DenseMapInfo_int32.
Proof.
  unfold tombstone_not_invalid. intros Hsame.
  apply (f_equal Int32.to_Z) in Hsame. vm_compute in Hsame.
  discriminate Hsame.
Defined.

(** With the largest and the smallest [int32_t] as sentinels, the two keys of
    every handle type are unequal and both pass [is_valid]. *)
Lemma llvm_keys {Index} `{IsIndexBase Index} :
  let Info := IndexMapInfo Index llvm_DenseMapInfo_int32 in
  op_eq (getEmptyKey Info) (getTombstoneKey Info) = false /\
  is_valid (getEmptyKey Info) = true /\
  is_valid (getTombstoneKey Info) = true.
Proof.
  intros Info. subst Info. split; [|split].
  - apply negb_true_iff. rewrite <- op_ne_negb_op_eq. apply op_ne_true.
    rewrite index_of_getEmptyKey, index_of_getTombstoneKey.
    exact llvm_sentinels_distinct.
  - apply is_valid_true. rewrite index_of_getEmptyKey.
    exact llvm_empty_not_invalid.
  - apply is_valid_true. rewrite index_of_getTombstoneKey.
    exact llvm_tombstone_not_invalid.
Qed.

Lemma Int32_of_Z_3_ne_5 : Int32.of_Z 3 <> Int32.of_Z 5.
Proof.
  intros Hsame. apply (f_equal Int32.to_Z) in Hsame. vm_compute in Hsame.
  discriminate Hsame.
Defined.

(** [IndexBase(3)] and [IndexBase(5)] are unequal. *)
Lemma equality_compares_index_witness :
  Int32.of_Z 3 <> Int32.of_Z 5 /\
  op_ne (IndexBase.make (Int32.of_Z 3)) (IndexBase.make (Int32.of_Z 5)) = true.
Proof.
  split; [exact Int32_of_Z_3_ne_5|].
  pose proof (equality_compares_index IndexBase.t _
                (IndexBase.make (Int32.of_Z 3))
                (IndexBase.make (Int32.of_Z 5))) as (_ & _ & _ & Hctor).
  destruct (Hctor (Int32.of_Z 3) (Int32.of_Z 5)) as [_ Hne].
  exact (Hne Int32_of_Z_3_ne_5).
Defined.

(** The invalid handle is below the handle [0], and [1 < 2 < 3]. *)
Lemma ordering_is_numeric_strict_total_witness :
  let h (z : Z) := ComparableIndexBase.make (Int32.of_Z z) in
  index_of (h (-1)) = IndexBase.InvalidIndex /\
  op_lt (h 1) (h 2) = true /\ op_lt (h 2) (h 3) = true /\
  op_lt (h 1) (h 3) = true /\
  (op_lt (h (-1)) (h 0) = true <-> -1 < Int32.to_Z (index_of (h 0))).
Proof.
  intros h.
  assert (H12 : op_lt (h 1) (h 2) = true) by reflexivity.
  assert (H23 : op_lt (h 2) (h 3) = true) by reflexivity.
  assert (Hinv : index_of (h (-1)) = IndexBase.InvalidIndex) by reflexivity.
  pose proof (ordering_is_numeric_strict_total ComparableIndexBase.t _ _
                (h 1) (h 2) (h 3)) as (_ & _ & _ & _ & _ & _ & Htrans & _).
  pose proof (ordering_is_numeric_strict_total ComparableIndexBase.t _ _
                (h (-1)) (h 0) (h 0)) as (_ & _ & _ & _ & Hsent & _).
  split; [exact Hinv|]. split; [exact H12|]. split; [exact H23|].
  split; [exact (Htrans H12 H23)|].
  exact (proj1 (Hsent Hinv)).
Defined.

(** With the largest and the smallest [int32_t] as sentinels. *)
Lemma empty_and_tombstone_keys_distinct_witness :
  sentinels_distinct llvm_DenseMapInfo_int32 /\
  empty_not_invalid llvm_DenseMapInfo_int32 /\
  op_eq (getEmptyKey (IndexMapInfo IndexBase.t llvm_DenseMapInfo_int32))
        (getTombstoneKey (IndexMapInfo IndexBase.t llvm_DenseMapInfo_int32))
    = false /\
  Int32.to_Z
    (index_of (getEmptyKey (IndexMapInfo IndexBase.t llvm_DenseMapInfo_int32)))
    <> -1.
Proof.
  split; [exact llvm_sentinels_distinct|].
  split; [exact llvm_empty_not_invalid|].
  pose proof (empty_and_tombstone_keys_distinct IndexBase.t _
                llvm_DenseMapInfo_int32
                llvm_sentinels_distinct llvm_empty_not_invalid) as Hthm.
  cbv zeta in Hthm. destruct Hthm as (Heq & _ & _ & _ & _ & Hidx).
  split; assumption.
Defined.

(** [IndexBase(7)] and [IndexBase(7)] hash alike. *)
Lemma hash_is_integer_hash_of_index_witness :
  let a := IndexBase.make (Int32.of_Z 7) in
  op_eq a a = true /\
  getHashValue (IndexMapInfo IndexBase.t llvm_DenseMapInfo_int32) a
    = getHashValue (IndexMapInfo IndexBase.t llvm_DenseMapInfo_int32) a.
Proof.
  intros a. split; [reflexivity|].
  pose proof (hash_is_integer_hash_of_index IndexBase.t _
                llvm_DenseMapInfo_int32 a a) as (_ & Heq & _).
  apply Heq. reflexivity.
Defined.

(** [IndexBase(42)] is valid and prints as [42]; [IndexBase(-1)] is not. *)
Lemma Print_decimal_or_invalid_witness :
  is_valid (IndexBase.make (Int32.of_Z 42)) = true /\
  is_valid (IndexBase.make (Int32.of_Z (-1))) = false /\
  Print (IndexBase.make (Int32.of_Z 42)) "out: "%string = "out: 42"%string /\
  Print (IndexBase.make (Int32.of_Z (-1))) "out: "%string = "out: <invalid>"%string.
Proof.
  assert (H42 : is_valid (IndexBase.make (Int32.of_Z 42)) = true)
    by reflexivity.
  assert (Hinv : is_valid (IndexBase.make (Int32.of_Z (-1))) = false)
    by reflexivity.
  split; [exact H42|]. split; [exact Hinv|].
  pose proof (Print_decimal_or_invalid IndexBase.t _
                (IndexBase.make (Int32.of_Z 42)) "out: "%string) as (Hv & _).
  pose proof (Print_decimal_or_invalid IndexBase.t _
                (IndexBase.make (Int32.of_Z (-1))) "out: "%string) as (_ & Hi & _).
  split.
  - destruct (Hv H42) as [Hp _]. rewrite Hp. reflexivity.
  - rewrite (Hi Hinv). reflexivity.
Defined.

(** With the largest and the smallest [int32_t] as sentinels. *)
Lemma empty_and_tombstone_keys_are_valid_witness :
  empty_not_invalid llvm_DenseMapInfo_int32 /\
  tombstone_not_invalid llvm_DenseMapInfo_int32 /\
  is_valid (getEmptyKey (IndexMapInfo IndexBase.t llvm_DenseMapInfo_int32))
    = true /\
  is_valid (getTombstoneKey (IndexMapInfo IndexBase.t llvm_DenseMapInfo_int32))
    = true.
Proof.
  split; [exact llvm_empty_not_invalid|].
  split; [exact llvm_tombstone_not_invalid|].
  exact (empty_and_tombstone_keys_are_valid IndexBase.t _
           llvm_DenseMapInfo_int32
           llvm_empty_not_invalid llvm_tombstone_not_invalid).
Defined.

(** A few evaluations of the model. *)

Example is_valid_0 : is_valid (IndexBase.make (Int32.of_Z 0)) = true.
Proof. reflexivity. Qed.

Example is_valid_negative :
  is_valid (IndexBase.make (Int32.of_Z (-2))) = true.
Proof. reflexivity. Qed.

Example Print_min :
  Print (IndexBase.make (Int32.of_Z Int32.min_value)) EmptyString
  = "-2147483648"%string.
Proof. vm_compute. reflexivity. Qed.

Example Print_max :
  Print (ComparableIndexBase.make (Int32.of_Z Int32.max_value)) "id"%string
  = "id2147483647"%string.
Proof. vm_compute. reflexivity. Qed.

Example invalid_below_zero :
  op_lt (ComparableIndexBase.make IndexBase.InvalidIndex)
        (ComparableIndexBase.make (Int32.of_Z 0)) = true.
Proof. reflexivity. Qed.

Example llvm_hash_of_2 :
  word.unsigned
    (getHashValue (IndexMapInfo IndexBase.t llvm_DenseMapInfo_int32)
       (IndexBase.make (Int32.of_Z 2))) = 74.
Proof. vm_compute. reflexivity. Qed.

Example llvm_hash_of_invalid :
  word.unsigned
    (getHashValue (IndexMapInfo IndexBase.t llvm_DenseMapInfo_int32)
       (IndexBase.make IndexBase.InvalidIndex)) = 2 ^ 32 - 37.
Proof. vm_compute. reflexivity. Qed.

(* ===================================================================== *)
(** ** Further properties of printing *)

Lemma append_inv_head (p a b : string) :
  (p ++ a)%string = (p ++ b)%string -> a = b.
Proof.
  induction p as [|c p IH]; cbn [String.append]; intros Hab.
  - exact Hab.
  - injection Hab as Hab. apply IH, Hab.
Qed.

Lemma append_assoc (a b c : string) :
  ((a ++ b) ++ c)%string = (a ++ (b ++ c))%string.
Proof.
  induction a as [|x a IH]; cbn [String.append]; [reflexivity|].
  rewrite IH. reflexivity.
Qed.

Lemma length_append (a b : string) :
  String.length (a ++ b) = (String.length a + String.length b)%nat.
Proof.
  induction a as [|x a IH]; cbn [String.append String.length]; [reflexivity|].
  rewrite IH. reflexivity.
Qed.

Lemma decimal_nonempty (z : Z) : decimal z <> EmptyString.
Proof.
  intros Hz. apply (f_equal parse_decimal) in Hz.
  rewrite parse_decimal_decimal in Hz. discriminate Hz.
Qed.

Lemma is_valid_false {IndexType} `{IsIndexBase IndexType} (x : IndexType) :
  is_valid x = false <-> index_of x = IndexBase.InvalidIndex.
Proof.
  unfold is_valid, IndexBase.is_valid. fold (index_of x).
  rewrite Int32_ne_negb_eq, negb_false_iff. apply Int32_eq_true.
Qed.

(** The text [Print] writes for a handle, on its own. *)
Lemma Print_text {IndexType} `{IsIndexBase IndexType}
  (x : IndexType) (output : raw_ostream) :
  Print x output = (output ++ Print x EmptyString)%string.
Proof.
  destruct (is_valid x) eqn:Hv.
  - rewrite !Print_valid by exact Hv. reflexivity.
  - rewrite !Print_invalid by exact Hv. reflexivity.
Qed.

(** X1.  Two handles print the same text exactly when they are [==]: the
    printed form identifies the handle, and no valid handle prints like the
    invalid one. *)
Theorem Print_same_text_iff_equal :
  forall (IndexType : Type) (D : IsIndexBase IndexType)
         (x y : IndexType) (output : raw_ostream),
    Print x output = Print y output <-> op_eq x y = true.
Proof.
  intros IndexType D x y output. rewrite op_eq_true. split.
  - intros Hsame.
    rewrite (Print_text x output), (Print_text y output) in Hsame.
    apply append_inv_head in Hsame. revert Hsame.
    destruct (is_valid x) eqn:Hx, (is_valid y) eqn:Hy.
    + rewrite !Print_valid by assumption. cbn [String.append].
      intros Hd. apply decimal_inj, Int32_to_Z_inj in Hd.
      rewrite Hd. reflexivity.
    + rewrite (Print_valid x), (Print_invalid y) by assumption.
      cbn [String.append].
      intros Hd. exfalso. exact (decimal_not_invalid _ Hd).
    + rewrite (Print_invalid x), (Print_valid y) by assumption.
      cbn [String.append].
      intros Hd. exfalso. symmetry in Hd. exact (decimal_not_invalid _ Hd).
    + intros _. apply is_valid_false in Hx. apply is_valid_false in Hy.
      rewrite Hx, Hy. reflexivity.
  - intros Hidx. unfold Print, IndexBase.Print, IndexBase.is_valid.
    fold (index_of x) (index_of y). rewrite Hidx. reflexivity.
Qed.

(** X2.  [Print] only appends: what the stream held stays in front, the text
    added depends on the handle alone and is never empty, and two calls in a
    row add their two texts in the order of the calls. *)
Theorem Print_appends_nonempty_text :
  forall (IndexType : Type) (D : IsIndexBase IndexType)
         (x y : IndexType) (output : raw_ostream),
    Print x output = (output ++ Print x EmptyString)%string /\
    Print x EmptyString <> EmptyString /\
    (String.length output < String.length (Print x output))%nat /\
    Print y (Print x output)
      = (output ++ (Print x EmptyString ++ Print y EmptyString))%string.
Proof.
  intros IndexType D x y output.
  assert (Hne : Print x EmptyString <> EmptyString).
  { destruct (is_valid x) eqn:Hv.
    - rewrite Print_valid by exact Hv. apply decimal_nonempty.
    - rewrite Print_invalid by exact Hv. discriminate. }
  split; [apply Print_text|]. split; [exact Hne|]. split.
  - rewrite (Print_text x output), length_append.
    destruct (Print x EmptyString); [contradiction|].
    cbn [String.length]. lia.
  - rewrite (Print_text y), (Print_text x output). apply append_assoc.
Qed.

(** X3.  The validity of a handle can be read off its printed text: the text
    is [<invalid>] exactly when the handle is not valid, and it is a decimal
    number, the index, exactly when the handle is valid. *)
Theorem Print_text_tells_validity :
  forall (IndexType : Type) (D : IsIndexBase IndexType) (x : IndexType),
    (Print x EmptyString = "<invalid>"%string <-> is_valid x = false) /\
    (parse_decimal (Print x EmptyString) = Some (Int32.to_Z (index_of x))
       <-> is_valid x = true) /\
    (parse_decimal (Print x EmptyString) = None <-> is_valid x = false).
Proof.
  intros IndexType D x. destruct (is_valid x) eqn:Hv.
  - rewrite Print_valid by exact Hv. cbn [String.append].
    rewrite parse_decimal_decimal. repeat split; try discriminate; auto.
    intros Hd. exfalso. exact (decimal_not_invalid _ Hd).
  - rewrite Print_invalid by exact Hv.
    repeat split; try discriminate; auto.
Qed.

(* ===================================================================== *)
(** ** Further properties of equality and validity *)

(** X4.  [==] is an equivalence on the handles of one type: besides being
    reflexive it is symmetric and transitive; [!=] is symmetric and is the
    negation of [==]. *)
Theorem op_eq_equivalence :
  forall (IndexType : Type) (D : IsIndexBase IndexType) (a b c : IndexType),
    op_eq a b = op_eq b a /\
    op_ne a b = op_ne b a /\
    op_ne a b = negb (op_eq a b) /\
    (op_eq a b = true -> op_eq b c = true -> op_eq a c = true) /\
    (op_eq a b = true -> op_ne b c = true -> op_ne a c = true).
Proof.
  intros IndexType D a b c.
  assert (Hsym : op_eq a b = op_eq b a)
    by (unfold op_eq, Int32.eq; apply Z.eqb_sym).
  split; [exact Hsym|].
  split; [rewrite !op_ne_negb_op_eq, Hsym; reflexivity|].
  split; [reflexivity|]. split.
  - rewrite !op_eq_true. intros Hab Hbc. rewrite Hab. exact Hbc.
  - rewrite op_eq_true, !op_ne_true. intros Hab Hbc. rewrite Hab. exact Hbc.
Qed.

(** X5.  Validity is a property of the [==] class of a handle: handles that
    are [==] are both valid or both not; a handle is not valid exactly when
    it is [==] to the handle made from [InvalidIndex]; and any two handles
    that are not valid are [==]. *)
Theorem is_valid_respects_equality :
  forall (IndexType : Type) (D : IsIndexBase IndexType) (a b : IndexType),
    (op_eq a b = true -> is_valid a = is_valid b) /\
    is_valid a = op_ne a (construct IndexBase.InvalidIndex) /\
    (is_valid a = false <-> op_eq a (construct IndexBase.InvalidIndex) = true) /\
    (is_valid a = false -> is_valid b = false -> op_eq a b = true).
Proof.
  intros IndexType D a b.
  assert (Hne : is_valid a = op_ne a (construct IndexBase.InvalidIndex)).
  { unfold op_ne. rewrite index_of_construct. reflexivity. }
  split; [|split; [exact Hne|split]].
  - intros Hab. apply op_eq_true in Hab.
    unfold is_valid, IndexBase.is_valid. fold (index_of a) (index_of b).
    rewrite Hab. reflexivity.
  - rewrite Hne, op_ne_negb_op_eq. apply negb_false_iff.
  - intros Ha Hb. apply is_valid_false in Ha. apply is_valid_false in Hb.
    apply op_eq_true. rewrite Ha, Hb. reflexivity.
Qed.

Lemma value_construct_of_Z {IndexType} `{IsIndexBase IndexType} (z : Z) :
  Int32.min_value <= z <= Int32.max_value ->
  value (construct (Int32.of_Z z) : IndexType) = z.
Proof.
  intros Hz. unfold value. rewrite index_of_construct.
  apply Int32_to_Z_of_Z, Hz.
Qed.

(** X6.  Handles made from integers that fit in 32 bits compare as those
    integers do: the value stored is the integer given, and [==], [!=] and,
    on a comparable type, [<], [<=], [>], [>=] return the comparison of the
    two integers. *)
Theorem comparisons_of_constructed_handles :
  forall (IndexType : Type) (D : IsIndexBase IndexType) (z1 z2 : Z),
    Int32.min_value <= z1 <= Int32.max_value ->
    Int32.min_value <= z2 <= Int32.max_value ->
    let a : IndexType := construct (Int32.of_Z z1) in
    let b : IndexType := construct (Int32.of_Z z2) in
    Int32.to_Z (index_of a) = z1 /\
    op_eq a b = (z1 =? z2) /\
    op_ne a b = negb (z1 =? z2) /\
    forall C : IsComparableIndexBase IndexType,
      op_lt a b = (z1 <? z2) /\ op_le a b = (z1 <=? z2) /\
      op_gt a b = (z1 >? z2) /\ op_ge a b = (z1 >=? z2).
Proof.
  intros IndexType D z1 z2 H1 H2 a b.
  pose proof (value_construct_of_Z (IndexType := IndexType) z1 H1) as Ha.
  pose proof (value_construct_of_Z (IndexType := IndexType) z2 H2) as Hb.
  fold a in Ha. fold b in Hb. unfold value in Ha, Hb.
  split; [exact Ha|].
  unfold op_eq, op_ne, Int32.eq, Int32.ne. rewrite Ha, Hb.
  split; [reflexivity|]. split; [reflexivity|].
  intros C. unfold op_lt, op_le, op_gt, op_ge.
  unfold Int32.lt, Int32.le, Int32.gt, Int32.ge. rewrite Ha, Hb.
  repeat split; reflexivity.
Qed.

(* ===================================================================== *)
(** ** Further properties of the ordering *)

Section OrderingMore.

Context {IndexType : Type} {D : IsIndexBase IndexType}
  {C : IsComparableIndexBase IndexType}.

Lemma op_lt_spec (a b : IndexType) :
  op_lt a b = (value a <? value b).
Proof. reflexivity. Qed.

Lemma op_le_spec (a b : IndexType) :
  op_le a b = (value a <=? value b).
Proof. reflexivity. Qed.

Lemma op_gt_spec (a b : IndexType) :
  op_gt a b = (value b <? value a).
Proof. unfold op_gt, Int32.gt, value. apply Z.gtb_ltb. Qed.

Lemma op_ge_spec (a b : IndexType) :
  op_ge a b = (value b <=? value a).
Proof. unfold op_ge, Int32.ge, value. apply Z.geb_leb. Qed.

Lemma op_eq_spec (a b : IndexType) :
  op_eq a b = (value a =? value b).
Proof. reflexivity. Qed.

Lemma op_ne_spec (a b : IndexType) :
  op_ne a b = negb (value a =? value b).
Proof. reflexivity. Qed.

End OrderingMore.

(** Turning every operator into a comparison of two numbers and deciding
    the comparisons. *)
Ltac by_values a b :=
  rewrite ?op_lt_spec, ?op_le_spec, ?op_gt_spec, ?op_ge_spec,
    ?op_eq_spec, ?op_ne_spec;
  destruct (Z.ltb_spec (value a) (value b));
  destruct (Z.ltb_spec (value b) (value a));
  destruct (Z.leb_spec (value a) (value b));
  destruct (Z.leb_spec (value b) (value a));
  destruct (Z.eqb_spec (value a) (value b));
  cbn [negb andb orb]; try reflexivity; try lia.

(** X7.  [<=] is a total order on a comparable type: it is reflexive, it is
    transitive, two handles that are [<=] each other are [==], and of any two
    handles one is [<=] the other. *)
Theorem op_le_total_order :
  forall (IndexType : Type) (D : IsIndexBase IndexType)
         (C : IsComparableIndexBase IndexType) (a b c : IndexType),
    op_le a a = true /\
    (op_le a b = true -> op_le b c = true -> op_le a c = true) /\
    (op_le a b = true -> op_le b a = true -> op_eq a b = true) /\
    op_le a b || op_le b a = true.
Proof.
  intros IndexType D C a b c. split; [|split; [|split]].
  - rewrite op_le_spec. apply Z.leb_refl.
  - rewrite !op_le_true. lia.
  - rewrite !op_le_true, op_eq_value. lia.
  - by_values a b.
Qed.

(** X8.  Each ordering operator is the negation of the opposite one, and
    equality can be recovered from the ordering: [a < b] is not [a >= b],
    [a > b] is not [a <= b], [a == b] is [a <= b] and [a >= b], [a != b] is
    [a < b] or [a > b], and [a == b] is neither [a < b] nor [b < a]. *)
Theorem ordering_operators_complement :
  forall (IndexType : Type) (D : IsIndexBase IndexType)
         (C : IsComparableIndexBase IndexType) (a b : IndexType),
    op_lt a b = negb (op_ge a b) /\
    op_gt a b = negb (op_le a b) /\
    op_eq a b = op_le a b && op_ge a b /\
    op_ne a b = op_lt a b || op_gt a b /\
    op_eq a b = negb (op_lt a b) && negb (op_lt b a).
Proof.
  intros IndexType D C a b.
  split; [by_values a b|]. split; [by_values a b|].
  split; [by_values a b|]. split; by_values a b.
Qed.

(** X9.  The ordering operators do not tell [==] handles apart: replacing
    either operand by a handle that is [==] to it leaves the result of [<],
    [<=], [>] and [>=] unchanged. *)
Theorem ordering_respects_equality :
  forall (IndexType : Type) (D : IsIndexBase IndexType)
         (C : IsComparableIndexBase IndexType) (a a' b b' : IndexType),
    op_eq a a' = true -> op_eq b b' = true ->
    op_lt a b = op_lt a' b' /\ op_le a b = op_le a' b' /\
    op_gt a b = op_gt a' b' /\ op_ge a b = op_ge a' b'.
Proof.
  intros IndexType D C a a' b b' Ha Hb.
  apply op_eq_true in Ha. apply op_eq_true in Hb.
  unfold op_lt, op_le, op_gt, op_ge. rewrite Ha, Hb.
  repeat split; reflexivity.
Qed.

(** X10.  The value of every handle lies between the smallest and the
    largest 32-bit integer, so the handle made from the smallest is [<=]
    every handle, the handle made from the largest is [>=] every handle, and
    no handle is [<] the former or [>] the latter. *)
Theorem handles_bounded :
  forall (IndexType : Type) (D : IsIndexBase IndexType)
         (C : IsComparableIndexBase IndexType) (x : IndexType),
    let least : IndexType := construct (Int32.of_Z Int32.min_value) in
    let greatest : IndexType := construct (Int32.of_Z Int32.max_value) in
    Int32.min_value <= Int32.to_Z (index_of x) <= Int32.max_value /\
    op_le least x = true /\ op_lt x least = false /\
    op_ge greatest x = true /\ op_gt x greatest = false.
Proof.
  intros IndexType D C x least greatest.
  pose proof (Int32_to_Z_range (index_of x)) as Hx. fold (value x) in Hx.
  assert (Hl : value least = Int32.min_value).
  { apply value_construct_of_Z. unfold Int32.min_value, Int32.max_value. lia. }
  assert (Hg : value greatest = Int32.max_value).
  { apply value_construct_of_Z. unfold Int32.min_value, Int32.max_value. lia. }
  split; [exact Hx|].
  rewrite op_le_spec, op_lt_spec, op_ge_spec, op_gt_spec, Hl, Hg.
  repeat split.
  - apply Z.leb_le. lia.
  - apply Z.ltb_ge. lia.
  - apply Z.leb_le. lia.
  - apply Z.ltb_ge. lia.
Qed.

(* ===================================================================== *)
(** ** Further properties of the keys of hash maps *)

(** X11.  [IndexMapInfo] does not keep handles away from the two reserved
    keys: a handle is [isEqual] to the empty key exactly when its index is
    the empty-slot sentinel of the integer utility, and to the tombstone key
    exactly when its index is the deleted-slot sentinel; a handle made from
    either sentinel is taken for that key and hashes like it. *)
Theorem reserved_keys_collide_by_index :
  forall (Index : Type) (D : IsIndexBase Index)
         (Int32Info : DenseMapInfo int32_t) (x : Index),
    let Info := IndexMapInfo Index Int32Info in
    (isEqual Info x (getEmptyKey Info) = true
       <-> index_of x = getEmptyKey Int32Info) /\
    (isEqual Info x (getTombstoneKey Info) = true
       <-> index_of x = getTombstoneKey Int32Info) /\
    isEqual Info (construct (getEmptyKey Int32Info)) (getEmptyKey Info)
      = true /\
    isEqual Info (construct (getTombstoneKey Int32Info)) (getTombstoneKey Info)
      = true /\
    (index_of x = getEmptyKey Int32Info ->
       getHashValue Info x = getHashValue Info (getEmptyKey Info)) /\
    (index_of x = getTombstoneKey Int32Info ->
       getHashValue Info x = getHashValue Info (getTombstoneKey Info)).
Proof.
  intros Index D Int32Info x Info. subst Info.
  cbn [IndexMapInfo isEqual].
  fold (getEmptyKey (IndexMapInfo Index Int32Info)).
  rewrite !op_eq_true, !getHashValue_index, !index_of_construct.
  cbn [IndexMapInfo getEmptyKey getTombstoneKey].
  rewrite !index_of_construct.
  repeat split; auto; intros ->; reflexivity.
Qed.

(** X12.  The two reserved keys are as distinct and as valid as the
    sentinels of the integer utility and no more: they are [==] exactly when
    the two sentinels are the same integer, and each is a valid handle
    exactly when its sentinel is not [InvalidIndex]. *)
Theorem reserved_keys_mirror_sentinels :
  forall (Index : Type) (D : IsIndexBase Index)
         (Int32Info : DenseMapInfo int32_t),
    let Info := IndexMapInfo Index Int32Info in
    (op_eq (getEmptyKey Info) (getTombstoneKey Info) = true
       <-> getEmptyKey Int32Info = getTombstoneKey Int32Info) /\
    (is_valid (getEmptyKey Info) = true
       <-> getEmptyKey Int32Info <> IndexBase.InvalidIndex) /\
    (is_valid (getTombstoneKey Info) = true
       <-> getTombstoneKey Int32Info <> IndexBase.InvalidIndex).
Proof.
  intros Index D Int32Info Info. subst Info.
  rewrite op_eq_true, !is_valid_true.
  rewrite index_of_getEmptyKey, index_of_getTombstoneKey.
  repeat split; auto.
Qed.

(* ===================================================================== *)
(** ** The further statements at concrete handles *)

(** [IndexBase(4)], [IndexBase(4)] and [IndexBase(4)]. *)
Lemma op_eq_equivalence_witness :
  let h := IndexBase.make (Int32.of_Z 4) in
  op_eq h h = true /\ op_eq h h = op_eq h h.
Proof.
  intros h.
  assert (Hrefl : op_eq h h = true) by reflexivity.
  pose proof (op_eq_equivalence IndexBase.t _ h h h)
    as (Hsym & _ & _ & Htrans & _).
  split; [exact (Htrans Hrefl Hrefl)|exact Hsym].
Defined.

(** Two handles made from [-1] by different routes. *)
Lemma is_valid_respects_equality_witness :
  let a := IndexBase.make (Int32.of_Z (-1)) in
  let b := IndexBase.make IndexBase.InvalidIndex in
  is_valid a = false /\ is_valid b = false /\ op_eq a b = true /\
  is_valid a = is_valid b.
Proof.
  intros a b.
  assert (Ha : is_valid a = false) by reflexivity.
  assert (Hb : is_valid b = false) by reflexivity.
  pose proof (is_valid_respects_equality IndexBase.t _ a b)
    as (Hresp & _ & _ & Hinv).
  split; [exact Ha|]. split; [exact Hb|].
  split; [exact (Hinv Ha Hb)|exact (Hresp (Hinv Ha Hb))].
Defined.

(** [ComparableIndexBase(-5)] and [ComparableIndexBase(12)]. *)
Lemma comparisons_of_constructed_handles_witness :
  Int32.min_value <= -5 <= Int32.max_value /\
  Int32.min_value <= 12 <= Int32.max_value /\
  op_lt (ComparableIndexBase.make (Int32.of_Z (-5)))
        (ComparableIndexBase.make (Int32.of_Z 12)) = true.
Proof.
  assert (H1 : Int32.min_value <= -5 <= Int32.max_value)
    by (unfold Int32.min_value, Int32.max_value; lia).
  assert (H2 : Int32.min_value <= 12 <= Int32.max_value)
    by (unfold Int32.min_value, Int32.max_value; lia).
  split; [exact H1|]. split; [exact H2|].
  pose proof (comparisons_of_constructed_handles ComparableIndexBase.t _
                (-5) 12 H1 H2) as Hthm.
  cbv zeta in Hthm. destruct Hthm as (_ & _ & _ & Hord).
  destruct (Hord _) as (Hlt & _). exact Hlt.
Defined.

(** [1 <= 2 <= 3]. *)
Lemma op_le_total_order_witness :
  let h (z : Z) := ComparableIndexBase.make (Int32.of_Z z) in
  op_le (h 1) (h 2) = true /\ op_le (h 2) (h 3) = true /\
  op_le (h 1) (h 3) = true.
Proof.
  intros h.
  assert (H12 : op_le (h 1) (h 2) = true) by reflexivity.
  assert (H23 : op_le (h 2) (h 3) = true) by reflexivity.
  pose proof (op_le_total_order ComparableIndexBase.t _ _ (h 1) (h 2) (h 3))
    as (_ & Htrans & _).
  split; [exact H12|]. split; [exact H23|exact (Htrans H12 H23)].
Defined.

(** [2] and [2] against [9] and [9]. *)
Lemma ordering_respects_equality_witness :
  let h (z : Z) := ComparableIndexBase.make (Int32.of_Z z) in
  op_eq (h 2) (h 2) = true /\ op_eq (h 9) (h 9) = true /\
  op_lt (h 2) (h 9) = op_lt (h 2) (h 9).
Proof.
  intros h.
  assert (H2 : op_eq (h 2) (h 2) = true) by reflexivity.
  assert (H9 : op_eq (h 9) (h 9) = true) by reflexivity.
  split; [exact H2|]. split; [exact H9|].
  exact (proj1 (ordering_respects_equality ComparableIndexBase.t _ _
                  (h 2) (h 2) (h 9) (h 9) H2 H9)).
Defined.
